(** * A shallow embedding of [rendering.py] (class [ELearningVisualizer])

    Python floats are modelled as rationals ([Q]).  Every comparison in the
    source is between an input value and a decimal literal ([0.4], [0.7],
    [0.15], [0.25], [0]); rounding a decimal to a double is monotone, so for
    the decimal inputs used below these comparisons give the same result on
    the doubles as on the exact rationals.  Float arithmetic whose rounding
    shows in the output (the metric bar's [width * value], the demo's running
    total) is rounded to the nearest double.  Drawing calls are modelled by the
    data they draw (texts and color keys); pixel positions are left out. *)

From Stdlib Require Import ZArith QArith Qround Qabs Qpower List String Ascii Bool Lia.
From Stdlib Require Import DecimalString DecimalN DecimalPos Lqa.
Import ListNotations.
Open Scope Z_scope.

(** ** Colors: the keys of [ELearningVisualizer.COLORS] *)

Inductive color :=
| background | panel | button | button_hover | button_active
| text | text_secondary | accent | success | warning | error
| engagement_high | engagement_med | engagement_low.

Definition COLORS (c : color) : Z * Z * Z :=
  match c with
  | background => (30, 30, 40)
  | panel => (50, 50, 60)
  | button => (70, 130, 180)
  | button_hover => (100, 160, 210)
  | button_active => (50, 200, 100)
  | text => (255, 255, 255)
  | text_secondary => (200, 200, 200)
  | accent => (255, 165, 0)
  | success => (76, 175, 80)
  | warning => (255, 193, 7)
  | error => (244, 67, 54)
  | engagement_high => (76, 175, 80)
  | engagement_med => (255, 193, 7)
  | engagement_low => (244, 67, 54)
  end.

(** ** Python float comparisons on [Q] *)

Definition py_lt (x y : Q) : bool := negb (Qle_bool y x).
Definition py_le (x y : Q) : bool := Qle_bool x y.

(** Python's [int(x)]: truncation toward zero. *)
Definition py_int (x : Q) : Z :=
  if Qle_bool 0 x then Qfloor x else - Qfloor (- x).

(** ** Python floats: rounding to the nearest double

    A double is a rational [m * 2^u] with a 53-bit significand; results
    are rounded to the nearest one, ties to an even significand, with
    subnormal spacing [2^-1074] below [2^-1022].  A rounded value of
    magnitude [2^1024] or more overflows to [inf]. *)

Definition pow2 (e : Z) : Q := Qpower (inject_Z 2) e.

(** The exponent [e] with [2^e <= q < 2^(e+1)], for [q > 0]. *)
Definition binade (q : Q) : Z :=
  let e0 := Z.log2 (Qnum q) - Z.log2 (Zpos (Qden q)) in
  if Qle_bool (pow2 e0) q then e0 else e0 - 1.

(** Rounding to an integer, ties to even. *)
Definition round_half_even (s : Q) : Z :=
  let f := Qfloor s in
  let r := (s - inject_Z f)%Q in
  if Qle_bool r (1 # 2) then
    if Qeq_bool r (1 # 2) then (if Z.even f then f else f + 1) else f
  else f + 1.

Definition round_pos (q : Q) : Q :=
  let u := Z.max (binade q - 52) (-1074) in
  (inject_Z (round_half_even (q / pow2 u)) * pow2 u)%Q.

(** The nearest double, with an unbounded exponent range above. *)
Definition round_nearest (q : Q) : Q :=
  if py_lt 0 q then round_pos q
  else if py_lt q 0 then (- round_pos (- q))%Q
  else 0%Q.

(** A float operation's result: [None] when it overflows to [inf]. *)
Definition float_round (q : Q) : option Q :=
  let r := round_nearest q in
  if Qle_bool (pow2 1024) (Qabs r) then None else Some r.

(** [int(width * value)] for an [int] width and a [float] value: Python
    converts [width] to a float (raising [OverflowError] beyond the double
    range), multiplies with rounding (an overflowing product is [inf]) and
    truncates, [int(inf)] raising [OverflowError].  [None] is the raised
    error. *)
Definition int_of_float_product (width : Z) (value : Q) : option Z :=
  match float_round (inject_Z width) with
  | None => None
  | Some fw =>
      match float_round (fw * value)%Q with
      | Some p => Some (py_int p)
      | None => None
      end
  end.

(** ** Number formatting: [f"{x:.1f}"] and [f"{x:+.1f}"]
    (the exact value of the argument rounded to one decimal, ties to even, as
    Python formats a double) *)

Definition z_to_string (n : Z) : string :=
  NilZero.string_of_uint (N.to_uint (Z.to_N n)).

(** [str(n)] for an integer [n]. *)
Definition z_repr (n : Z) : string :=
  if n <? 0 then ("-" ++ z_to_string (- n))%string else z_to_string n.

Definition fmt_1f_abs (x : Q) : string :=
  let n := round_half_even (Qabs x * 10) in
  (z_to_string (n / 10) ++ "." ++ z_to_string (n mod 10))%string.

Definition fmt_1f (x : Q) : string :=
  if py_lt x 0 then ("-" ++ fmt_1f_abs x)%string else fmt_1f_abs x.

(** A [Q] zero stands for [+0.0]; the double [-0.0] is not modelled. *)
Definition fmt_plus_1f (x : Q) : string :=
  if py_lt x 0 then ("-" ++ fmt_1f_abs x)%string else ("+" ++ fmt_1f_abs x)%string.

(** ** The state snapshot [env_state]: a dict whose recognised keys may be
    absent; [env_get] is [dict.get(key, default)]. *)

Record snapshot := {
  lesson_difficulty : option Q;
  student_accuracy : option Q;
  engagement_level : option Q;
  hints_requested : option Z;
  time_on_lesson : option Z;
  interface_efficiency : option Q;
  aac_button_usage : option (list Q);
  step : option Z
}.

Definition env_get {A} (field : option A) (default : A) : A :=
  match field with Some v => v | None => default end.

Definition empty_snapshot : snapshot :=
  {| lesson_difficulty := None; student_accuracy := None;
     engagement_level := None; hints_requested := None;
     time_on_lesson := None; interface_efficiency := None;
     aac_button_usage := None; step := None |}.

(** ** The visualizer's own state (fields set in [__init__]) *)

Record visualizer := {
  fps : Z;
  frame_count : Z;
  last_action : option Z;
  action_display_timer : Z
}.

Definition aac_symbols : list string :=
  ["I want"; "Help"; "Yes"; "No"; "More"; "Stop"]%string.

Definition init : visualizer :=
  {| fps := 4; frame_count := 0; last_action := None; action_display_timer := 0 |}.

(** ** [_draw_lesson_panel] *)

Record lesson_view := {
  diff_text : string;
  diff_color : color;
  difficulty_shown : Q;
  hints_shown : Z;
  time_shown : Z
}.

Definition difficulty_text (difficulty : Q) : string :=
  if py_lt difficulty (4 # 10) then "Easy"%string
  else if py_lt difficulty (7 # 10) then "Medium"%string
  else "Hard"%string.

Definition difficulty_color (difficulty : Q) : color :=
  if py_le (4 # 10) difficulty && py_le difficulty (7 # 10) then success else warning.

Definition _draw_lesson_panel (env : snapshot) : lesson_view :=
  let difficulty := env_get (lesson_difficulty env) (5 # 10) in
  {| diff_text := difficulty_text difficulty;
     diff_color := difficulty_color difficulty;
     difficulty_shown := difficulty;
     hints_shown := env_get (hints_requested env) 0;
     time_shown := env_get (time_on_lesson env) 0 |}.

(** ** [_draw_aac_panel] *)

Record aac_button_view := {
  btn_symbol : string;
  btn_color : color;
  btn_usage_text : string
}.

Definition usage_color (usage : Q) : color :=
  if py_lt (25 # 100) usage then button_active
  else if py_lt (15 # 100) usage then button_hover
  else button.

Definition draw_aac_button (symbol : string) (usage : Q) : aac_button_view :=
  {| btn_symbol := symbol;
     btn_color := usage_color usage;
     btn_usage_text := (fmt_1f (usage * 100) ++ "%")%string |}.

(** [np.array([0.17] * 6)] *)
Definition default_aac_usage : list Q := repeat (17 # 100) 6.

(** [for i, (symbol, usage) in enumerate(zip(self.aac_symbols, button_usage))] *)
Definition _draw_aac_panel (env : snapshot) : list aac_button_view :=
  let button_usage := env_get (aac_button_usage env) default_aac_usage in
  map (fun '(symbol, usage) => draw_aac_button symbol usage)
      (combine aac_symbols button_usage).

(** ** [_draw_metric_bar] *)

Record bar_view := {
  bar_label : string;
  bar_value : Q;
  bar_width : Z;
  bar_filled_width : option Z;   (** [None]: [int()] raises [OverflowError] *)
  bar_color : color;
  bar_value_text : string
}.

Definition _draw_metric_bar (label : string) (value : Q) (width : Z) (c : color)
  : bar_view :=
  {| bar_label := label;
     bar_value := value;
     bar_width := width;
     bar_filled_width := int_of_float_product width value;
     bar_color := c;
     bar_value_text := (fmt_1f (value * 100) ++ "%")%string |}.

(** ** [_draw_metrics_panel] *)

Record metrics_view := {
  accuracy_bar : bar_view;
  engagement_bar : bar_view;
  efficiency_bar : bar_view;
  reward_text : option (string * color);
  total_text : option string;
  step_text : string
}.

Definition engagement_color (engagement : Q) : color :=
  if py_lt (7 # 10) engagement then engagement_high
  else if py_lt (4 # 10) engagement then engagement_med
  else engagement_low.

Definition reward_color (reward : Q) : color :=
  if py_lt 0 reward then success else error.

Definition _draw_metrics_panel (env : snapshot) (reward total_reward : option Q)
  : metrics_view :=
  let accuracy := env_get (student_accuracy env) (7 # 10) in
  let engagement := env_get (engagement_level env) (8 # 10) in
  let interface_eff := env_get (interface_efficiency env) (5 # 10) in
  let st := env_get (step env) 0 in
  {| accuracy_bar := _draw_metric_bar "Student Accuracy" accuracy 400 success;
     engagement_bar :=
       _draw_metric_bar "Engagement" engagement 400 (engagement_color engagement);
     efficiency_bar := _draw_metric_bar "Interface Efficiency" interface_eff 400 button;
     reward_text :=
       match reward with
       | Some r => Some (("Last Reward: " ++ fmt_plus_1f r)%string, reward_color r)
       | None => None
       end;
     total_text :=
       match total_reward with
       | Some t => Some ("Episode Reward: " ++ fmt_1f t)%string
       | None => None
       end;
     step_text :=
       ("Step: " ++ z_repr st ++ "/200")%string |}.

(** ** [_draw_agent_info_panel] *)

Definition action_names : list string :=
  ["Keep current layout"; "Optimize AAC buttons"; "Increase difficulty";
   "Decrease difficulty"; "Provide hint"; "Predict next word";
   "Adjust button sizes"]%string.

Inductive action_view :=
| Highlight (name : string)   (** the "Current Action:" callout *)
| Waiting.                    (** "Waiting for agent action..." *)

Record agent_view := {
  episode_shown : option Z;
  action_shown : action_view
}.

Definition _draw_agent_info_panel (action : option Z) (episode : option Z) : agent_view :=
  {| episode_shown := episode;
     action_shown :=
       match action with
       | Some a =>
           if (0 <=? a) && (a <? Z.of_nat (List.length action_names))
           then Highlight (nth (Z.to_nat a) action_names ""%string)
           else Waiting
       | None => Waiting
       end |}.

(** ** Events drained by [pygame.event.get()] *)

Definition K_ESCAPE : Z := 27.
Definition K_q : Z := 113.

Inductive event :=
| QUIT
| KEYDOWN (key : Z)
| OTHER_EVENT.

Fixpoint handle_events (evs : list event) : bool :=
  match evs with
  | [] => true
  | QUIT :: _ => false
  | KEYDOWN key :: rest =>
      if (key =? K_ESCAPE) || (key =? K_q) then false else handle_events rest
  | OTHER_EVENT :: rest => handle_events rest
  end.

(** ** [render] *)

Record frame := {
  lesson : lesson_view;
  aac : list aac_button_view;
  metrics : metrics_view;
  agent : agent_view
}.

(** Lines 113--119: update of the action display countdown. *)
Definition update_action (v : visualizer) (action : option Z) : visualizer :=
  let v1 :=
    match action with
    | Some a => {| fps := fps v; frame_count := frame_count v;
                   last_action := Some a; action_display_timer := 2 * fps v |}
    | None => v
    end in
  if action_display_timer v1 >? 0
  then {| fps := fps v1; frame_count := frame_count v1;
          last_action := last_action v1;
          action_display_timer := action_display_timer v1 - 1 |}
  else v1.

Definition render (v : visualizer) (env : snapshot) (action : option Z)
    (reward : option Q) (episode : option Z) (total_reward : option Q)
    (evs : list event) : visualizer * frame * bool :=
  let v1 := update_action v action in
  let fr :=
    {| lesson := _draw_lesson_panel env;
       aac := _draw_aac_panel env;
       metrics := _draw_metrics_panel env reward total_reward;
       agent := _draw_agent_info_panel
                  (if action_display_timer v1 >? 0 then last_action v1 else None)
                  episode |} in
  let v2 := {| fps := fps v1; frame_count := frame_count v1 + 1;
               last_action := last_action v1;
               action_display_timer := action_display_timer v1 |} in
  (v2, fr, handle_events evs).

(** A render call's arguments, and a sequence of calls. *)
Record call := {
  c_env : snapshot;
  c_action : option Z;
  c_reward : option Q;
  c_episode : option Z;
  c_total : option Q;
  c_events : list event
}.

Definition render_call (v : visualizer) (c : call) : visualizer * frame * bool :=
  render v (c_env c) (c_action c) (c_reward c) (c_episode c) (c_total c) (c_events c).

Fixpoint run (v : visualizer) (cs : list call) : visualizer * list frame :=
  match cs with
  | [] => (v, [])
  | c :: rest =>
      let '(v1, fr, _) := render_call v c in
      let '(v2, frs) := run v1 rest in
      (v2, fr :: frs)
  end.

Definition idle_call : call :=
  {| c_env := empty_snapshot; c_action := None; c_reward := None;
     c_episode := None; c_total := None; c_events := [] |}.

Definition action_call (a : Z) : call :=
  {| c_env := empty_snapshot; c_action := Some a; c_reward := None;
     c_episode := None; c_total := None; c_events := [] |}.

Example ex_labels :
  map (fun b => btn_usage_text b) (_draw_aac_panel empty_snapshot)
  = repeat "17.0%"%string 6.
Proof. reflexivity. Qed.

Example ex_run :
  map (fun f => action_shown (agent f)) (snd (run init (action_call 0 :: repeat idle_call 8)))
  = Highlight "Keep current layout" :: repeat (Highlight "Keep current layout") 6
    ++ [Waiting; Waiting].
Proof. vm_compute. reflexivity. Qed.

(** ** Snapshots fixing one key *)

Definition with_difficulty (d : Q) : snapshot :=
  {| lesson_difficulty := Some d; student_accuracy := None;
     engagement_level := None; hints_requested := None;
     time_on_lesson := None; interface_efficiency := None;
     aac_button_usage := None; step := None |}.

Definition with_engagement (e : Q) : snapshot :=
  {| lesson_difficulty := None; student_accuracy := None;
     engagement_level := Some e; hints_requested := None;
     time_on_lesson := None; interface_efficiency := None;
     aac_button_usage := None; step := None |}.

Definition with_usage (u : list Q) : snapshot :=
  {| lesson_difficulty := None; student_accuracy := None;
     engagement_level := None; hints_requested := None;
     time_on_lesson := None; interface_efficiency := None;
     aac_button_usage := Some u; step := None |}.

(** The agent-panel display of each frame of a run. *)
Definition shown_actions (v : visualizer) (cs : list call) : list action_view :=
  map (fun f => action_shown (agent f)) (snd (run v cs)).

Definition action_name (a : Z) : string := nth (Z.to_nat a) action_names ""%string.

(** ** Lemmas on the Python comparisons *)

Lemma py_lt_spec (x y : Q) : py_lt x y = true <-> (x < y)%Q.
Proof.
  unfold py_lt. rewrite negb_true_iff. split; intro H.
  - apply Qnot_le_lt. intro H'. apply Qle_bool_iff in H'. congruence.
  - destruct (Qle_bool y x) eqn:E; [|reflexivity].
    apply Qle_bool_iff in E. exfalso. apply (Qlt_not_le x y); assumption.
Qed.

Lemma py_lt_false (x y : Q) : py_lt x y = false <-> (y <= x)%Q.
Proof.
  unfold py_lt. rewrite negb_false_iff. apply Qle_bool_iff.
Qed.

Lemma py_le_spec (x y : Q) : py_le x y = true <-> (x <= y)%Q.
Proof. apply Qle_bool_iff. Qed.

Lemma py_le_false (x y : Q) : py_le x y = false <-> (y < x)%Q.
Proof.
  split; intro H.
  - apply Qnot_le_lt. intro H'. apply py_le_spec in H'. congruence.
  - destruct (py_le x y) eqn:E; [|reflexivity].
    apply py_le_spec in E. exfalso. apply (Qlt_not_le y x); assumption.
Qed.

(** ** The action countdown *)

Lemma render_idle (v : visualizer) (c : call) :
  c_action c = None ->
  fst (fst (render_call v c)) =
    {| fps := fps v; frame_count := frame_count v + 1; last_action := last_action v;
       action_display_timer :=
         if action_display_timer v >? 0 then action_display_timer v - 1
         else action_display_timer v |} /\
  action_shown (agent (snd (fst (render_call v c)))) =
    action_shown (_draw_agent_info_panel
      (if (if action_display_timer v >? 0 then action_display_timer v - 1
           else action_display_timer v) >? 0 then last_action v else None)
      (c_episode c)).
Proof.
  intro H. unfold render_call, render, update_action. rewrite H.
  destruct (action_display_timer v >? 0); split; reflexivity.
Qed.

Lemma agent_shown_in_range (a : Z) (ep : option Z) :
  0 <= a < 7 -> action_shown (_draw_agent_info_panel (Some a) ep) = Highlight (action_name a).
Proof.
  intro H. cbn. replace ((0 <=? a) && (a <? 7)) with true; [reflexivity|].
  symmetry. apply andb_true_iff. split; [apply Z.leb_le | apply Z.ltb_lt]; lia.
Qed.

Lemma shown_actions_idle (cs : list call) :
  forall (v : visualizer) (a : Z),
  0 <= a < 7 -> last_action v = Some a -> 0 <= action_display_timer v ->
  Forall (fun c => c_action c = None) cs ->
  forall k, (k < List.length cs)%nat ->
  nth_error (shown_actions v cs) k =
    Some (if Z.of_nat k <? action_display_timer v - 1 then Highlight (action_name a)
          else Waiting).
Proof.
  induction cs as [|c cs IH]; intros v a Ha Hl Ht Hall k Hk; [simpl in Hk; lia|].
  inversion Hall as [|? ? Hc Hrest]; subst.
  destruct (render_idle v c Hc) as [Hv Hs].
  unfold shown_actions. cbn [run].
  destruct (render_call v c) as [[v1 fr] b] eqn:E. cbn [fst snd] in Hv, Hs.
  destruct (run v1 cs) as [v2 frs] eqn:E2.
  destruct k as [|k].
  - cbn. rewrite Hs, Hl.
    destruct (action_display_timer v >? 0) eqn:T.
    + apply Z.gtb_lt in T.
      destruct (action_display_timer v - 1 >? 0) eqn:T1.
      * apply Z.gtb_lt in T1. rewrite agent_shown_in_range by assumption.
        replace (0 <? action_display_timer v - 1) with true; [reflexivity|].
        symmetry. apply Z.ltb_lt. lia.
      * rewrite Z.gtb_ltb in T1. apply Z.ltb_ge in T1.
        replace (0 <? action_display_timer v - 1) with false; [reflexivity|].
        symmetry. apply Z.ltb_ge. lia.
    + rewrite Z.gtb_ltb in T. apply Z.ltb_ge in T. rewrite Z.gtb_ltb.
      replace (0 <? action_display_timer v) with false by (symmetry; apply Z.ltb_ge; lia).
      replace (0 <? action_display_timer v - 1) with false; [reflexivity|].
      symmetry. apply Z.ltb_ge. lia.
  - cbn [map nth_error]. cbn in Hk.
    assert (Hr : nth_error (shown_actions v1 cs) k =
      Some (if Z.of_nat k <? action_display_timer v1 - 1 then Highlight (action_name a)
            else Waiting)).
    { apply IH; [assumption | rewrite Hv; exact Hl | rewrite Hv | assumption | lia].
      destruct (action_display_timer v >? 0) eqn:T; cbn.
      - apply Z.gtb_lt in T. lia.
      - assumption. }
    unfold shown_actions in Hr. rewrite E2 in Hr. cbn [snd] in Hr. cbn [snd map]. rewrite Hr.
    rewrite Hv. cbn [action_display_timer].
    destruct (Z.gtb_spec (action_display_timer v) 0);
    repeat match goal with |- context [?x <? ?y] => destruct (Z.ltb_spec x y) end;
    try reflexivity; lia.
Qed.

Lemma render_with_action (v : visualizer) env a r ep t evs :
  1 <= fps v -> 0 <= a < 7 ->
  let '(v1, fr, _) := render v env (Some a) r ep t evs in
  last_action v1 = Some a /\ action_display_timer v1 = 2 * fps v - 1 /\
  action_shown (agent fr) = Highlight (action_name a).
Proof.
  intros Hf Ha.
  assert (E1 : (2 * fps v >? 0) = true) by (apply Z.gtb_lt; lia).
  assert (E2 : (2 * fps v - 1 >? 0) = true) by (apply Z.gtb_lt; lia).
  unfold render, update_action. cbn [fps last_action action_display_timer agent].
  rewrite E1. cbn [fps last_action action_display_timer]. rewrite E2.
  split; [reflexivity|]. split; [reflexivity|].
  apply agent_shown_in_range; assumption.
Qed.

(** After a render call with an action index [a] in [0,7), the callout naming
    [a] is drawn on that call and on the next [2 * fps - 2] render calls that
    omit the action; on every later action-less call the waiting placeholder
    is drawn.  The countdown is set to [2 * fps] and decremented on the
    setting call itself, before the panel is drawn. *)
Lemma action_display_window (v : visualizer) env a r ep t evs (cs : list call) :
  1 <= fps v -> 0 <= a < 7 -> Forall (fun c => c_action c = None) cs ->
  let '(v1, fr, _) := render v env (Some a) r ep t evs in
  action_shown (agent fr) = Highlight (action_name a) /\
  forall k, (k < List.length cs)%nat ->
    nth_error (shown_actions v1 cs) k =
      Some (if Z.of_nat k <? 2 * fps v - 2 then Highlight (action_name a) else Waiting).
Proof.
  intros Hf Ha Hall.
  pose proof (render_with_action v env a r ep t evs Hf Ha) as H.
  destruct (render v env (Some a) r ep t evs) as [[v1 fr] b].
  destruct H as (Hl & Ht & Hs). split; [exact Hs|].
  intros k Hk. rewrite (shown_actions_idle cs v1 a Ha Hl) by (assumption || lia).
  rewrite Ht. replace (2 * fps v - 1 - 1) with (2 * fps v - 2) by lia. reflexivity.
Qed.

(** ** C1 *)

(** C1 (code bug): [render] sets the countdown to [2 * fps] ("Display for 2
    seconds") but decrements it in the same call before drawing, so on a
    fresh visualizer (fps = 4) a render call with action 0 followed by 8
    action-less calls shows the callout on 7 frames only (1.75 s): the 7th
    and 8th following calls already show the waiting placeholder, where the
    claim has the callout on all 8 following calls. *)
Theorem C1_callout_frames_fresh :
  shown_actions init (action_call 0 :: repeat idle_call 8)
    = repeat (Highlight (action_name 0)) 7 ++ [Waiting; Waiting].
Proof. vm_compute. reflexivity. Qed.

(** ** C2 *)

Definition difficulty_view (d : Q) : string * color :=
  let l := _draw_lesson_panel (with_difficulty d) in (diff_text l, diff_color l).

(** C2 (as stated, refuted): difficulty 0.70 is not labelled "Medium". *)
Lemma C2_counterexample :
  ~ (difficulty_view (70 # 100) = ("Medium"%string, success)).
Proof. vm_compute. discriminate. Qed.

(** C2 (amended): 0.39 gives "Easy"/warning, 0.40 "Medium"/success, 0.70
    "Hard"/success and 0.71 "Hard"/warning; in general the label is "Easy"
    below 0.4, "Medium" on [0.4, 0.7) and "Hard" from 0.7 on, while the color
    is success exactly on the closed band [0.4, 0.7]. *)
Theorem C2_difficulty_label_and_band :
  difficulty_view (39 # 100) = ("Easy"%string, warning) /\
  difficulty_view (40 # 100) = ("Medium"%string, success) /\
  difficulty_view (70 # 100) = ("Hard"%string, success) /\
  difficulty_view (71 # 100) = ("Hard"%string, warning) /\
  (forall d,
     (fst (difficulty_view d) = "Easy"%string <-> (d < 4 # 10)%Q) /\
     (fst (difficulty_view d) = "Medium"%string <-> (4 # 10 <= d)%Q /\ (d < 7 # 10)%Q) /\
     (fst (difficulty_view d) = "Hard"%string <-> (7 # 10 <= d)%Q) /\
     (snd (difficulty_view d) = success <-> (4 # 10 <= d)%Q /\ (d <= 7 # 10)%Q)).
Proof.
  split; [reflexivity|]. split; [reflexivity|]. split; [reflexivity|].
  split; [reflexivity|].
  intro d. unfold difficulty_view, _draw_lesson_panel, difficulty_text, difficulty_color.
  cbn [diff_text diff_color fst snd env_get with_difficulty lesson_difficulty].
  destruct (py_lt d (4 # 10)) eqn:E1; [apply py_lt_spec in E1 | apply py_lt_false in E1];
  destruct (py_lt d (7 # 10)) eqn:E2; try apply py_lt_spec in E2; try apply py_lt_false in E2;
  destruct (py_le (4 # 10) d && py_le d (7 # 10)) eqn:E3;
  try (apply andb_true_iff in E3; destruct E3 as [E3 E4];
       apply py_le_spec in E3; apply py_le_spec in E4);
  try (apply andb_false_iff in E3;
       destruct E3 as [E3|E3]; apply py_le_false in E3);
  repeat split; intros; first [reflexivity | discriminate | lra | exfalso; lra].
Qed.

(** ** C3 *)

(** C3 (as stated, refuted): with [aac_button_usage] absent the labels are not
    the percentage of 1/6 ("16.7%"). *)
Lemma C3_counterexample :
  map btn_usage_text (_draw_aac_panel empty_snapshot)
  <> repeat (fmt_1f ((1 # 6) * 100) ++ "%")%string 6.
Proof. vm_compute. discriminate. Qed.

(** C3 (amended): when [aac_button_usage] is absent, each of the six buttons
    gets the default usage 0.17: it is drawn in the hover tier with the label
    "17.0%", and drawing the panel does not fail. *)
Theorem C3_default_aac_usage (env : snapshot) :
  aac_button_usage env = None ->
  _draw_aac_panel env =
    map (fun s => {| btn_symbol := s; btn_color := button_hover;
                     btn_usage_text := "17.0%"%string |}) aac_symbols.
Proof. intro H. unfold _draw_aac_panel. rewrite H. vm_compute. reflexivity. Qed.

Lemma C3_witness :
  aac_button_usage empty_snapshot = None /\
  _draw_aac_panel empty_snapshot =
    map (fun s => {| btn_symbol := s; btn_color := button_hover;
                     btn_usage_text := "17.0%"%string |}) aac_symbols.
Proof. split; [reflexivity | apply (C3_default_aac_usage empty_snapshot); reflexivity]. Defined.

(** ** C4 *)

Definition engagement_tier (e : Q) : color :=
  bar_color (engagement_bar (_draw_metrics_panel (with_engagement e) None None)).

(** C4: the engagement bar is in the high tier above 0.7, in the medium tier on
    (0.4, 0.7] and in the low tier at or below 0.4; so 0.71 is high, 0.70 and
    0.41 medium, 0.40 low. *)
Theorem C4_engagement_tiers :
  (forall e,
     ((7 # 10 < e)%Q -> engagement_tier e = engagement_high) /\
     ((4 # 10 < e)%Q -> (e <= 7 # 10)%Q -> engagement_tier e = engagement_med) /\
     ((e <= 4 # 10)%Q -> engagement_tier e = engagement_low)) /\
  engagement_tier (71 # 100) = engagement_high /\
  engagement_tier (70 # 100) = engagement_med /\
  engagement_tier (41 # 100) = engagement_med /\
  engagement_tier (40 # 100) = engagement_low.
Proof.
  split; [|repeat split; reflexivity].
  intro e. unfold engagement_tier, _draw_metrics_panel, _draw_metric_bar, engagement_color.
  cbn [engagement_bar bar_color env_get with_engagement engagement_level].
  destruct (py_lt (7 # 10) e) eqn:E1; [apply py_lt_spec in E1 | apply py_lt_false in E1];
  destruct (py_lt (4 # 10) e) eqn:E2; try apply py_lt_spec in E2; try apply py_lt_false in E2;
  repeat split; intros; first [reflexivity | lra].
Qed.

Lemma C4_witness :
  engagement_tier (8 # 10) = engagement_high /\
  engagement_tier (5 # 10) = engagement_med /\
  engagement_tier (1 # 10) = engagement_low.
Proof.
  destruct C4_engagement_tiers as [H _].
  split; [apply (proj1 (H (8 # 10))); lra|].
  split; [apply (proj1 (proj2 (H (5 # 10)))); lra|].
  apply (proj2 (proj2 (H (1 # 10)))); lra.
Defined.

(** ** C5 *)

Lemma nth_error_aac_panel (u : list Q) (i : nat) (x : Q) :
  (i < 6)%nat -> nth_error u i = Some x ->
  nth_error (_draw_aac_panel (with_usage u)) i =
    Some (draw_aac_button (nth i aac_symbols ""%string) x).
Proof.
  intros Hi Hx. unfold _draw_aac_panel. cbn [env_get with_usage aac_button_usage].
  rewrite nth_error_map.
  assert (Hs : nth_error aac_symbols i = Some (nth i aac_symbols ""%string)).
  { apply nth_error_nth'. cbn. lia. }
  revert u Hx Hs. generalize aac_symbols. induction i as [|i IH]; intros ss u Hx Hs;
    destruct ss as [|s ss]; destruct u as [|y u]; cbn in *; try discriminate.
  - inversion Hx; inversion Hs; subst. reflexivity.
  - apply IH; [lia | assumption | assumption].
Qed.

Lemma usage_color_tiers (x : Q) :
  ((25 # 100 < x)%Q -> usage_color x = button_active) /\
  ((15 # 100 < x)%Q -> (x <= 25 # 100)%Q -> usage_color x = button_hover) /\
  ((x <= 15 # 100)%Q -> usage_color x = button).
Proof.
  unfold usage_color.
  destruct (py_lt (25 # 100) x) eqn:E1; [apply py_lt_spec in E1 | apply py_lt_false in E1];
  destruct (py_lt (15 # 100) x) eqn:E2; try apply py_lt_spec in E2; try apply py_lt_false in E2;
  repeat split; intros; first [reflexivity | lra].
Qed.

(** C5: for a 6-element usage list, the [i]-th button is drawn for the [i]-th
    symbol in the tier fixed by its own usage [x] (active above 0.25, hover on
    (0.15, 0.25], base at or below 0.15), and any other 6-element usage list
    with the same [i]-th value draws that button in the same color. *)
Theorem C5_aac_button_tiers (u : list Q) (i : nat) (x : Q) :
  List.length u = 6%nat -> (i < 6)%nat -> nth_error u i = Some x ->
  exists b,
    nth_error (_draw_aac_panel (with_usage u)) i = Some b /\
    btn_symbol b = nth i aac_symbols ""%string /\
    ((25 # 100 < x)%Q -> btn_color b = button_active) /\
    ((15 # 100 < x)%Q -> (x <= 25 # 100)%Q -> btn_color b = button_hover) /\
    ((x <= 15 # 100)%Q -> btn_color b = button) /\
    (forall u', List.length u' = 6%nat -> nth_error u' i = Some x ->
       exists b', nth_error (_draw_aac_panel (with_usage u')) i = Some b' /\
                  btn_color b' = btn_color b).
Proof.
  intros _ Hi Hx.
  exists (draw_aac_button (nth i aac_symbols ""%string) x).
  split; [apply nth_error_aac_panel; assumption|].
  split; [reflexivity|].
  destruct (usage_color_tiers x) as (H1 & H2 & H3). cbn [btn_color draw_aac_button].
  split; [exact H1|]. split; [exact H2|]. split; [exact H3|].
  intros u' _ Hx'. eexists. split; [apply nth_error_aac_panel; eassumption|]. reflexivity.
Qed.

Definition sample_usage : list Q :=
  [30 # 100; 20 # 100; 10 # 100; 17 # 100; 26 # 100; 15 # 100].

Lemma C5_witness :
  (List.length sample_usage = 6%nat /\ (0 < 6)%nat /\ nth_error sample_usage 0 = Some (30 # 100)) /\
  exists b,
    nth_error (_draw_aac_panel (with_usage sample_usage)) 0 = Some b /\
    btn_symbol b = nth 0 aac_symbols ""%string /\
    ((25 # 100 < 30 # 100)%Q -> btn_color b = button_active) /\
    ((15 # 100 < 30 # 100)%Q -> (30 # 100 <= 25 # 100)%Q -> btn_color b = button_hover) /\
    ((30 # 100 <= 15 # 100)%Q -> btn_color b = button) /\
    (forall u', List.length u' = 6%nat -> nth_error u' 0 = Some (30 # 100) ->
       exists b', nth_error (_draw_aac_panel (with_usage u')) 0 = Some b' /\
                  btn_color b' = btn_color b).
Proof.
  split; [split; [reflexivity | split; [lia | reflexivity]]|].
  apply (C5_aac_button_tiers sample_usage 0 (30 # 100)); [reflexivity | lia | reflexivity].
Defined.

(** ** C6 *)

Definition is_exit_event (e : event) : bool :=
  match e with
  | QUIT => true
  | KEYDOWN key => (key =? K_ESCAPE) || (key =? K_q)
  | OTHER_EVENT => false
  end.

Lemma handle_events_exists (evs : list event) :
  handle_events evs = negb (existsb is_exit_event evs).
Proof.
  induction evs as [|e evs IH]; [reflexivity|].
  destruct e as [|key|]; cbn; [reflexivity| |exact IH].
  destruct ((key =? K_ESCAPE) || (key =? K_q)); [reflexivity | exact IH].
Qed.


(** ** C7 *)

(** C7: an action index outside [0,7) shows the waiting placeholder; an index
    in [0,7) is a valid position of the 7-entry name table and shows the
    callout with that name. *)
Theorem C7_action_index_guard (a : Z) (ep : option Z) :
  ((a < 0 \/ 7 <= a) -> action_shown (_draw_agent_info_panel (Some a) ep) = Waiting) /\
  (0 <= a < 7 ->
     (Z.to_nat a < List.length action_names)%nat /\
     action_shown (_draw_agent_info_panel (Some a) ep) =
       Highlight (nth (Z.to_nat a) action_names ""%string)) /\
  action_shown (_draw_agent_info_panel None ep) = Waiting.
Proof.
  split; [|split; [|reflexivity]].
  - intro H. cbn. replace ((0 <=? a) && (a <? 7)) with false; [reflexivity|].
    symmetry. apply andb_false_iff.
    destruct H; [left; apply Z.leb_gt | right; apply Z.ltb_ge]; lia.
  - intro H. split; [cbn; lia|]. apply agent_shown_in_range. exact H.
Qed.

Lemma C7_witness :
  action_shown (_draw_agent_info_panel (Some 7) None) = Waiting /\
  action_shown (_draw_agent_info_panel (Some (-1)) None) = Waiting /\
  action_shown (_draw_agent_info_panel (Some 4) None) =
    Highlight (nth (Z.to_nat 4) action_names ""%string).
Proof.
  split; [apply (proj1 (C7_action_index_guard 7 None)); lia|].
  split; [apply (proj1 (C7_action_index_guard (-1) None)); lia|].
  apply (proj2 (proj1 (proj2 (C7_action_index_guard 4 None)) ltac:(lia))).
Defined.

(** ** C8 *)

Lemma py_int_ge (z : Z) (x : Q) : (inject_Z z <= x)%Q -> z <= py_int x.
Proof.
  intro H. unfold py_int. destruct (Qle_bool 0 x) eqn:E.
  - rewrite <- (Qfloor_Z z). apply Qfloor_resp_le. exact H.
  - assert (H' : (- x <= inject_Z (- z))%Q) by (rewrite inject_Z_opp; lra).
    apply Qfloor_resp_le in H'. rewrite Qfloor_Z in H'. lia.
Qed.

Lemma py_int_nonpos (x : Q) : (x <= 0)%Q -> py_int x <= 0.
Proof.
  intro H. unfold py_int. destruct (Qle_bool 0 x) eqn:E.
  - apply Qfloor_resp_le in H. exact H.
  - assert (H' : (inject_Z 0 <= - x)%Q) by (unfold inject_Z; lra).
    apply Qfloor_resp_le in H'. rewrite Qfloor_Z in H'. lia.
Qed.

(** *** Lemmas on the double rounding *)

Lemma pow2_pos (e : Z) : (0 < pow2 e)%Q.
Proof. apply Qpower_0_lt. reflexivity. Qed.

Lemma pow2_add (x y : Z) : (pow2 (x + y) == pow2 x * pow2 y)%Q.
Proof. apply Qpower_plus. intro H. inversion H. Qed.

Lemma pow2_Z (e : Z) : 0 <= e -> (pow2 e == inject_Z (2 ^ e))%Q.
Proof. intro H. symmetry. apply Zpower_Qpower. exact H. Qed.

Lemma pow2_le (x y : Z) : x <= y -> (pow2 x <= pow2 y)%Q.
Proof. intro H. apply Qpower_le_compat_l; [exact H | unfold Qle; cbn; lia]. Qed.

Lemma pow2_inv (u : Z) : (pow2 (- u) * pow2 u == 1)%Q.
Proof. rewrite <- pow2_add. replace (- u + u) with 0 by lia. reflexivity. Qed.

Lemma binade_le (q : Q) : (0 < q)%Q -> (pow2 (binade q) <= q)%Q.
Proof.
  intro Hq. unfold binade.
  destruct (Qle_bool (pow2 _) q) eqn:E; [apply Qle_bool_iff; exact E|].
  destruct q as [n d]. cbn [Qnum Qden].
  assert (Hn : 0 < n) by (unfold Qlt in Hq; cbn in Hq; lia).
  pose proof (Z.log2_spec n Hn) as [Ha _].
  pose proof (Z.log2_spec (Zpos d) ltac:(lia)) as [_ Hd].
  pose proof (Z.log2_nonneg n) as Ha0.
  pose proof (Z.log2_nonneg (Zpos d)) as Hb0.
  set (a := Z.log2 n) in *. set (b := Z.log2 (Zpos d)) in *.
  rewrite Z.pow_succ_r in Hd by lia.
  rewrite Qmake_Qdiv. apply Qle_shift_div_l; [unfold Qlt; cbn; lia|].
  apply Qle_trans with (pow2 (a - b - 1) * pow2 (b + 1))%Q.
  - apply Qmult_le_l; [apply pow2_pos|]. rewrite pow2_Z by lia.
    rewrite <- Zle_Qle. rewrite Z.pow_add_r by lia. lia.
  - rewrite <- pow2_add. replace (a - b - 1 + (b + 1)) with a by lia.
    rewrite pow2_Z by lia. rewrite <- Zle_Qle. exact Ha.
Qed.

Lemma round_half_even_ge (K : Z) (s : Q) :
  (inject_Z K <= s)%Q -> K <= round_half_even s.
Proof.
  intro H. apply Qfloor_resp_le in H. rewrite Qfloor_Z in H.
  unfold round_half_even.
  destruct (Qle_bool _ _); [destruct (Qeq_bool _ _); [destruct (Z.even _)|]|]; lia.
Qed.

Lemma round_half_even_le (K : Z) (s : Q) :
  (s <= inject_Z K)%Q -> round_half_even s <= K.
Proof.
  intro H. pose proof (Qfloor_resp_le _ _ H) as Hf. rewrite Qfloor_Z in Hf.
  assert (Hlt : (inject_Z (Qfloor s) < s)%Q -> Qfloor s < K).
  { intro Hs. destruct (Z_lt_le_dec (Qfloor s) K) as [L|L]; [exact L|].
    rewrite Zle_Qle in L. lra. }
  unfold round_half_even.
  destruct (Qle_bool _ (1 # 2)) eqn:E1.
  - destruct (Qeq_bool _ (1 # 2)) eqn:E2; [|exact Hf].
    apply Qeq_bool_iff in E2.
    destruct (Z.even _); [exact Hf|]. enough (Qfloor s < K) by lia. apply Hlt. lra.
  - assert (E1' : ~ (s - inject_Z (Qfloor s) <= 1 # 2)%Q).
    { intro C. apply Qle_bool_iff in C. congruence. }
    enough (Qfloor s < K) by lia. apply Hlt. lra.
Qed.

Lemma round_pos_nonneg (q : Q) : (0 < q)%Q -> (0 <= round_pos q)%Q.
Proof.
  intro Hq. unfold round_pos.
  set (u := Z.max (binade q - 52) (-1074)).
  apply Qmult_le_0_compat; [|apply Qlt_le_weak, pow2_pos].
  change 0%Q with (inject_Z 0). rewrite <- Zle_Qle. apply round_half_even_ge.
  apply Qle_shift_div_l; [apply pow2_pos|]. change (inject_Z 0) with 0%Q. lra.
Qed.

Lemma round_pos_ge (k : Z) (q : Q) :
  (0 < q)%Q -> 1 <= k <= 2 ^ 53 -> (inject_Z k <= q)%Q -> (inject_Z k <= round_pos q)%Q.
Proof.
  intros Hq Hk Hkq. unfold round_pos.
  pose proof (binade_le q Hq) as He.
  set (e := binade q) in *. set (u := Z.max (e - 52) (-1074)).
  destruct (Z_le_gt_dec u 0) as [Hu|Hu].
  - assert (HK : (inject_Z (k * 2 ^ (- u)) <= q / pow2 u)%Q).
    { rewrite inject_Z_mult. rewrite <- pow2_Z by lia.
      apply Qle_shift_div_l; [apply pow2_pos|].
      rewrite <- Qmult_assoc, pow2_inv, Qmult_1_r. exact Hkq. }
    apply round_half_even_ge in HK.
    apply Qle_trans with (inject_Z (k * 2 ^ (- u)) * pow2 u)%Q.
    + rewrite inject_Z_mult. rewrite <- pow2_Z by lia. rewrite <- Qmult_assoc, pow2_inv, Qmult_1_r.
      apply Qle_refl.
    + apply Qmult_le_compat_r; [rewrite <- Zle_Qle; exact HK | apply Qlt_le_weak, pow2_pos].
  - assert (Hue : u = e - 52) by lia.
    assert (Hs : (inject_Z (2 ^ 52) <= q / pow2 u)%Q).
    { rewrite <- pow2_Z by lia. apply Qle_shift_div_l; [apply pow2_pos|].
      rewrite <- pow2_add. replace (52 + u) with e by lia. exact He. }
    apply round_half_even_ge in Hs.
    apply Qle_trans with (inject_Z (2 ^ 52) * pow2 u)%Q.
    + rewrite <- pow2_Z by lia. rewrite <- pow2_add.
      apply Qle_trans with (pow2 53).
      * rewrite pow2_Z by lia. rewrite <- Zle_Qle. lia.
      * apply pow2_le. lia.
    + apply Qmult_le_compat_r; [rewrite <- Zle_Qle; exact Hs | apply Qlt_le_weak, pow2_pos].
Qed.

Lemma round_pos_le (k : Z) (q : Q) :
  (0 < q)%Q -> 0 <= k < 2 ^ 53 -> (q <= inject_Z k)%Q -> (round_pos q <= inject_Z k)%Q.
Proof.
  intros Hq Hk Hkq. unfold round_pos.
  pose proof (binade_le q Hq) as He.
  set (e := binade q) in *. set (u := Z.max (e - 52) (-1074)).
  assert (He53 : e <= 52).
  { destruct (Z_le_gt_dec e 52) as [L|L]; [exact L|].
    assert (P : (pow2 53 <= pow2 e)%Q) by (apply pow2_le; lia).
    rewrite pow2_Z in P by lia.
    assert (Kq : (inject_Z k < inject_Z (2 ^ 53))%Q) by (rewrite <- Zlt_Qlt; lia).
    lra. }
  assert (Hu : u <= 0) by lia.
  assert (HK : (q / pow2 u <= inject_Z (k * 2 ^ (- u)))%Q).
  { rewrite inject_Z_mult. rewrite <- pow2_Z by lia.
    apply Qle_shift_div_r; [apply pow2_pos|].
    rewrite <- Qmult_assoc, pow2_inv, Qmult_1_r. exact Hkq. }
  apply round_half_even_le in HK.
  apply Qle_trans with (inject_Z (k * 2 ^ (- u)) * pow2 u)%Q.
  - apply Qmult_le_compat_r; [rewrite <- Zle_Qle; exact HK | apply Qlt_le_weak, pow2_pos].
  - rewrite inject_Z_mult. rewrite <- pow2_Z by lia. rewrite <- Qmult_assoc, pow2_inv, Qmult_1_r.
    apply Qle_refl.
Qed.

Lemma round_nearest_ge (k : Z) (q : Q) :
  1 <= k <= 2 ^ 53 -> (inject_Z k <= q)%Q -> (inject_Z k <= round_nearest q)%Q.
Proof.
  intros Hk Hkq.
  assert (Hq : (0 < q)%Q).
  { apply Qlt_le_trans with (inject_Z k); [unfold Qlt; cbn; lia | exact Hkq]. }
  unfold round_nearest. replace (py_lt 0 q) with true by (symmetry; apply py_lt_spec; exact Hq).
  apply round_pos_ge; assumption.
Qed.

Lemma round_nearest_bounds (k : Z) (q : Q) :
  0 <= k < 2 ^ 53 -> (0 <= q)%Q -> (q <= inject_Z k)%Q ->
  (0 <= round_nearest q)%Q /\ (round_nearest q <= inject_Z k)%Q.
Proof.
  intros Hk H0 Hkq. unfold round_nearest.
  destruct (py_lt 0 q) eqn:E1.
  - apply py_lt_spec in E1. split; [apply round_pos_nonneg | apply round_pos_le]; assumption.
  - apply py_lt_false in E1.
    replace (py_lt q 0) with false by (symmetry; apply py_lt_false; exact H0).
    split; [apply Qle_refl | unfold Qle; cbn; lia].
Qed.

Lemma round_nearest_nonpos (q : Q) : (q <= 0)%Q -> (round_nearest q <= 0)%Q.
Proof.
  intro H. unfold round_nearest.
  replace (py_lt 0 q) with false by (symmetry; apply py_lt_false; exact H).
  destruct (py_lt q 0) eqn:E; [|apply Qle_refl].
  apply py_lt_spec in E.
  assert (N : (0 <= round_pos (- q))%Q) by (apply round_pos_nonneg; lra). lra.
Qed.

Lemma float_round_some (q r : Q) : float_round q = Some r -> r = round_nearest q.
Proof. unfold float_round. destruct (Qle_bool _ _); congruence. Qed.

Lemma float_round_bounded (k : Z) (q : Q) :
  0 <= k < 2 ^ 53 -> (0 <= q)%Q -> (q <= inject_Z k)%Q ->
  exists r, float_round q = Some r /\ (0 <= r)%Q /\ (r <= inject_Z k)%Q.
Proof.
  intros Hk H0 Hkq. destruct (round_nearest_bounds k q Hk H0 Hkq) as [B0 B1].
  unfold float_round. destruct (Qle_bool (pow2 1024) (Qabs (round_nearest q))) eqn:E.
  - exfalso. apply Qle_bool_iff in E. rewrite Qabs_pos in E by exact B0.
    rewrite pow2_Z in E by lia.
    assert (L : (inject_Z k < inject_Z (2 ^ 1024))%Q).
    { rewrite <- Zlt_Qlt. assert (2 ^ 53 < 2 ^ 1024) by reflexivity. lia. }
    lra.
  - eexists. split; [reflexivity | split; assumption].
Qed.

Lemma float_round_int (w : Z) :
  0 <= w < 2 ^ 53 -> exists r, float_round (inject_Z w) = Some r /\ (r == inject_Z w)%Q.
Proof.
  intro Hw.
  destruct (float_round_bounded w (inject_Z w) Hw) as (r & Hr & R0 & R1);
    [unfold Qle; cbn; lia | apply Qle_refl|].
  exists r. split; [exact Hr|]. apply Qle_antisym; [exact R1|].
  destruct (Z.eq_dec w 0) as [->|Hn0]; [exact R0|].
  apply float_round_some in Hr. subst r. apply round_nearest_ge; [lia | apply Qle_refl].
Qed.

Lemma int_of_float_product_some (w : Z) (v : Q) (f : Z) :
  0 <= w < 2 ^ 53 -> int_of_float_product w v = Some f ->
  exists fw, (fw == inject_Z w)%Q /\ f = py_int (round_nearest (fw * v)).
Proof.
  intros Hw H. destruct (float_round_int w Hw) as (fw & Hfw & Efw).
  unfold int_of_float_product in H. rewrite Hfw in H.
  destruct (float_round (fw * v)) as [p|] eqn:Hp; [|discriminate].
  injection H as <-. apply float_round_some in Hp. subst p. exists fw. split; [exact Efw | reflexivity].
Qed.

(** C8 (as stated, refuted): a value above 1 need not give a bar longer than
    the track, and a value can make the call raise: on the 400-pixel track the
    double nearest 1.001 fills exactly 400 pixels, and the double nearest 1e308
    makes the product overflow, so [int()] raises [OverflowError]. *)
Lemma C8_counterexample :
  ~ (forall value, (1 < value)%Q -> exists f,
       bar_filled_width (_draw_metric_bar "Engagement" value 400 success) = Some f /\ 400 < f) /\
  bar_filled_width (_draw_metric_bar "Engagement" (round_nearest (1001 # 1000)) 400 success)
    = Some 400 /\
  bar_filled_width (_draw_metric_bar "Engagement" (round_nearest (inject_Z (10 ^ 308))) 400 success)
    = None.
Proof.
  split; [|split; vm_compute; reflexivity].
  intro H. destruct (H (round_nearest (1001 # 1000))) as (f & Hf & Hlt).
  - vm_compute. reflexivity.
  - vm_compute in Hf. injection Hf as <-. lia.
Qed.

(** C8 (amended): the filled width is [int(width * value)], the truncation
    toward zero of the double product, not clamped.  When it is computed
    (the product is finite) and [0 < width < 2^53]: a value above 1 gives at
    least the track width, strictly more once [width * value >= width + 1];
    for [0 <= width < 2^53] a negative value gives a non-positive width. *)
Theorem C8_metric_bar_double_product (label : string) (value : Q) (width : Z) (c : color) :
  let b := _draw_metric_bar label value width c in
  bar_filled_width b = int_of_float_product width value /\
  (forall f, bar_filled_width b = Some f -> 0 < width < 2 ^ 53 -> (1 < value)%Q ->
     width <= f) /\
  (forall f, bar_filled_width b = Some f -> 0 < width < 2 ^ 53 ->
     (inject_Z (width + 1) <= inject_Z width * value)%Q -> width < f) /\
  (forall f, bar_filled_width b = Some f -> 0 <= width < 2 ^ 53 -> (value < 0)%Q ->
     f <= 0).
Proof.
  cbn zeta. unfold _draw_metric_bar. cbn [bar_filled_width].
  split; [reflexivity|]. split; [|split].
  - intros f Hf Hw Hv. destruct (int_of_float_product_some width value f ltac:(lia) Hf)
      as (fw & Efw & ->).
    apply py_int_ge, round_nearest_ge; [lia|]. rewrite Efw.
    assert (Hw' : (0 < inject_Z width)%Q) by (unfold Qlt; cbn; lia). nra.
  - intros f Hf Hw Hv. destruct (int_of_float_product_some width value f ltac:(lia) Hf)
      as (fw & Efw & ->).
    enough (width + 1 <= py_int (round_nearest (fw * value))) by lia.
    apply py_int_ge, round_nearest_ge; [lia|]. rewrite Efw. exact Hv.
  - intros f Hf Hw Hv. destruct (int_of_float_product_some width value f ltac:(lia) Hf)
      as (fw & Efw & ->).
    apply py_int_nonpos, round_nearest_nonpos. rewrite Efw.
    assert (Hw' : (0 <= inject_Z width)%Q) by (unfold Qle; cbn; lia). nra.
Qed.

Lemma C8_witness :
  let b := _draw_metric_bar "Engagement" 2 400 success in
  bar_filled_width b = Some 800 /\
  bar_filled_width b = int_of_float_product 400 2 /\
  (forall f, bar_filled_width b = Some f -> 0 < 400 < 2 ^ 53 -> (1 < 2)%Q -> 400 <= f) /\
  (forall f, bar_filled_width b = Some f -> 0 < 400 < 2 ^ 53 ->
     (inject_Z (400 + 1) <= inject_Z 400 * 2)%Q -> 400 < f) /\
  (forall f, bar_filled_width b = Some f -> 0 <= 400 < 2 ^ 53 -> (2 < 0)%Q -> f <= 0).
Proof.
  cbn zeta. split; [vm_compute; reflexivity|].
  apply (C8_metric_bar_double_product "Engagement" 2 400 success).
Defined.

(** On the 400-pixel track the double nearest 0.29 fills 115 pixels: the
    product 400 * 0.29 is 115.99999999999999 in double arithmetic. *)
Example metric_bar_double_029 :
  bar_filled_width (_draw_metric_bar "Accuracy" (round_nearest (29 # 100)) 400 success)
    = Some 115.
Proof. vm_compute. reflexivity. Qed.

(** Ties of [.1f] go to the even digit: 0.25 prints "0.2", 0.75 "0.8". *)
Example fmt_1f_ties : fmt_1f (1 # 4) = "0.2"%string /\ fmt_1f (3 # 4) = "0.8"%string.
Proof. split; vm_compute; reflexivity. Qed.

(** ** C9 *)

Lemma render_call_timer (v : visualizer) (c : call) :
  fps (fst (fst (render_call v c))) = fps v /\
  action_display_timer (fst (fst (render_call v c))) =
    (let t := match c_action c with Some _ => 2 * fps v | None => action_display_timer v end in
     if t >? 0 then t - 1 else t).
Proof.
  unfold render_call, render, update_action.
  destruct (c_action c); cbn [fps action_display_timer fst];
  match goal with |- context [if ?b then _ else _] => destruct b end; split; reflexivity.
Qed.

Lemma run_timer_bounds (cs : list call) :
  forall v, 0 <= fps v -> 0 <= action_display_timer v <= 2 * fps v ->
  fps (fst (run v cs)) = fps v /\
  0 <= action_display_timer (fst (run v cs)) <= 2 * fps v.
Proof.
  induction cs as [|c cs IH]; intros v Hf Ht; [split; [reflexivity | exact Ht]|].
  cbn [run]. destruct (render_call_timer v c) as [Hf' Ht'].
  destruct (render_call v c) as [[v1 fr] b]. cbn [fst] in Hf', Ht'.
  assert (Hb : 0 <= action_display_timer v1 <= 2 * fps v1).
  { rewrite Ht', Hf'. destruct (c_action c); cbn zeta;
    match goal with |- context [?x >? ?y] => destruct (Z.gtb_spec x y) end; lia. }
  destruct (IH v1 ltac:(lia) Hb) as [H1 H2].
  destruct (run v1 cs) as [v2 frs]. cbn [fst] in *. rewrite H1, Hf' in *. split; lia.
Qed.

(** C9: every render call sets the countdown to [2 * fps] when an action is
    given and then decrements it only when it is positive; hence, for every
    sequence of render calls on a fresh visualizer, the countdown stays
    between 0 and [2 * fps] = 8 (it is never negative). *)
Theorem C9_timer_nonnegative :
  (forall v c,
     action_display_timer (fst (fst (render_call v c))) =
       (let t := match c_action c with Some _ => 2 * fps v | None => action_display_timer v end in
        if t >? 0 then t - 1 else t)) /\
  (forall cs : list call,
     fps (fst (run init cs)) = 4 /\ 0 <= action_display_timer (fst (run init cs)) <= 8).
Proof.
  split; [intros v c; apply render_call_timer|].
  intro cs. destruct (run_timer_bounds cs init) as [H1 H2]; cbn; try lia.
  split; [exact H1 | exact H2].
Qed.

(** ** C10 *)

(** C10: a reward of exactly 0 is shown as "Last Reward: +0.0" in the error
    color; the success color is used exactly for strictly positive rewards. *)
Theorem C10_zero_reward_error_color :
  (forall env t,
     reward_text (_draw_metrics_panel env (Some 0%Q) t) =
       Some ("Last Reward: +0.0"%string, error)) /\
  (forall env t r,
     option_map snd (reward_text (_draw_metrics_panel env (Some r) t)) = Some success
     <-> (0 < r)%Q).
Proof.
  split; [intros; reflexivity|].
  intros env t r. cbn [reward_text _draw_metrics_panel option_map snd].
  unfold reward_color. destruct (py_lt 0 r) eqn:E.
  - apply py_lt_spec in E. split; [intros _; exact E | reflexivity].
  - apply py_lt_false in E. split; [discriminate | intro H; lra].
Qed.

(** * Further properties of the rest of [rendering.py] *)


(** ** [_initialize_button_positions]: rectangles [(x, y, w, h)] *)

Definition _initialize_button_positions : list (Z * Z * Z * Z) :=
  let button_width := 180 in
  let button_height := 120 in
  let margin := 20 in
  let start_x := 50 in
  let start_y := 500 in
  map (fun i =>
         let row := i / 3 in
         let col := i mod 3 in
         (start_x + col * (button_width + margin),
          start_y + row * (button_height + margin), button_width, button_height))
      (map Z.of_nat (seq 0 6)).

(** [pygame.Rect.colliderect]: two rectangles share an interior point. *)
Definition rects_overlap (r1 r2 : Z * Z * Z * Z) : bool :=
  let '(x1, y1, w1, h1) := r1 in
  let '(x2, y2, w2, h2) := r2 in
  (x1 <? x2 + w2) && (x2 <? x1 + w1) && (y1 <? y2 + h2) && (y2 <? y1 + h1).

(** [outer.contains(inner)] *)
Definition rect_contains (outer inner : Z * Z * Z * Z) : bool :=
  let '(x1, y1, w1, h1) := outer in
  let '(x2, y2, w2, h2) := inner in
  (x1 <=? x2) && (y1 <=? y2) && (x2 + w2 <=? x1 + w1) && (y2 + h2 <=? y1 + h1).

(** The AAC panel background [pygame.Rect(50, 470, 600, 280)] and the window. *)
Definition aac_panel_rect : Z * Z * Z * Z := (50, 470, 600, 280).
Definition window_rect : Z * Z * Z * Z := (0, 0, 1200, 800).

(** ** The [__main__] demonstration loop.  The random reward of each step
    and the events pending at each frame are inputs. *)

Definition test_state_1 : snapshot :=
  {| lesson_difficulty := Some (5 # 10); student_accuracy := Some (7 # 10);
     engagement_level := Some (8 # 10); hints_requested := Some 2;
     time_on_lesson := Some 15; interface_efficiency := Some (6 # 10);
     aac_button_usage :=
       Some [25 # 100; 15 # 100; 20 # 100; 10 # 100; 20 # 100; 10 # 100];
     step := Some 15 |}.

Definition test_state_2 : snapshot :=
  {| lesson_difficulty := Some (6 # 10); student_accuracy := Some (75 # 100);
     engagement_level := Some (85 # 100); hints_requested := Some 2;
     time_on_lesson := Some 20; interface_efficiency := Some (7 # 10);
     aac_button_usage :=
       Some [30 # 100; 15 # 100; 15 # 100; 10 # 100; 20 # 100; 10 # 100];
     step := Some 20 |}.

(** [for i, state in enumerate(test_states)]: each iteration gets its state,
    the reward drawn by [np.random.uniform(-5, 10)] (a double in [-5, 10)) and
    the pending events; [total_reward += reward] is a double addition. *)
Fixpoint demo_loop (v : visualizer) (i : nat) (iters : list (snapshot * Q * list event))
    (total_reward : Q) : list frame :=
  match iters with
  | [] => []
  | (state, reward, evs) :: rest =>
      let action := Z.of_nat i mod 7 in
      let total' := round_nearest (total_reward + reward) in
      let '(v1, fr, running) :=
        render v state (Some action) (Some reward) (Some 1) (Some total') evs in
      fr :: (if running then demo_loop v1 (S i) rest total' else [])
  end.

Definition demo_main (r1 r2 : Q) (e1 e2 : list event) : list frame :=
  demo_loop init 0 [(test_state_1, r1, e1); (test_state_2, r2, e2)] 0.

(** ** Helper lemmas *)

Lemma z_to_string_inj (m n : Z) :
  0 <= m -> 0 <= n -> z_to_string m = z_to_string n -> m = n.
Proof.
  intros Hm Hn H. unfold z_to_string in H.
  assert (Hnn : forall k : N, N.to_uint k <> Decimal.Nil).
  { intros [|p]; [discriminate | apply DecimalPos.Unsigned.to_uint_nonnil]. }
  pose proof (NilZero.usu _ (Hnn (Z.to_N m))) as Um.
  pose proof (NilZero.usu _ (Hnn (Z.to_N n))) as Un.
  rewrite H, Un in Um. injection Um as Um.
  apply DecimalN.Unsigned.to_uint_inj in Um. lia.
Qed.

Lemma z_to_string_not_minus (n : Z) (s : string) : z_to_string n <> String "-"%char s.
Proof.
  intro H.
  assert (Hnn : N.to_uint (Z.to_N n) <> Decimal.Nil).
  { destruct (Z.to_N n) as [|p]; [discriminate | apply DecimalPos.Unsigned.to_uint_nonnil]. }
  pose proof (NilZero.usu _ Hnn) as U. unfold z_to_string in H. rewrite H in U.
  cbn in U. destruct (NilEmpty.uint_of_string s); discriminate.
Qed.

Lemma z_repr_inj (m n : Z) : z_repr m = z_repr n -> m = n.
Proof.
  unfold z_repr. intro H. destruct (Z.ltb_spec m 0) as [Lm|Lm], (Z.ltb_spec n 0) as [Ln|Ln].
  - cbn in H. injection H as H. apply z_to_string_inj in H; lia.
  - symmetry in H. cbn in H. apply z_to_string_not_minus in H. contradiction.
  - cbn in H. apply z_to_string_not_minus in H. contradiction.
  - apply z_to_string_inj in H; lia.
Qed.

Lemma string_length_app (a b : string) :
  String.length (a ++ b) = (String.length a + String.length b)%nat.
Proof. induction a as [|c a IH]; cbn; [reflexivity | rewrite IH; reflexivity]. Qed.

Lemma string_app_inv_r (a b s : string) : (a ++ s = b ++ s)%string -> a = b.
Proof.
  revert b. induction a as [|c a IH]; intros [|d b] H; cbn in H.
  - reflexivity.
  - apply (f_equal String.length) in H. cbn in H. rewrite string_length_app in H. lia.
  - apply (f_equal String.length) in H. cbn in H. rewrite string_length_app in H. lia.
  - injection H as -> H. f_equal. apply IH. exact H.
Qed.

Lemma py_int_le (z : Z) (x : Q) : (0 <= x)%Q -> (x <= inject_Z z)%Q -> py_int x <= z.
Proof.
  intros H0 H. unfold py_int.
  replace (Qle_bool 0 x) with true by (symmetry; apply Qle_bool_iff; exact H0).
  apply Qfloor_resp_le in H. rewrite Qfloor_Z in H. exact H.
Qed.

Lemma py_int_nonneg (x : Q) : (0 <= x)%Q -> 0 <= py_int x.
Proof.
  intro H. apply (py_int_ge 0). unfold inject_Z. exact H.
Qed.

Lemma map_fst_combine {A B} (l : list A) (u : list B) :
  map fst (combine l u) = firstn (List.length u) l.
Proof.
  revert u. induction l as [|x l IH]; intros [|y u]; cbn; try reflexivity.
  rewrite IH. reflexivity.
Qed.

Lemma combine_app_r {A B} (l : list A) (u extra : list B) :
  (List.length l <= List.length u)%nat -> combine l (u ++ extra) = combine l u.
Proof.
  revert u. induction l as [|x l IH]; intros [|y u] H; cbn in *; try reflexivity; try lia.
  rewrite IH by lia. reflexivity.
Qed.

(** ** [_draw_aac_panel]: the [zip] with the six symbols *)

(** The AAC panel draws one button per pair of [zip(aac_symbols, usage)]:
    [min 6 (len usage)] buttons, for the first symbols in their fixed order;
    a short usage list draws fewer buttons rather than failing. *)
Theorem aac_panel_zip_length (env : snapshot) (u : list Q) :
  aac_button_usage env = Some u ->
  List.length (_draw_aac_panel env) = Nat.min 6 (List.length u) /\
  map btn_symbol (_draw_aac_panel env) = firstn (List.length u) aac_symbols.
Proof.
  intro H. unfold _draw_aac_panel. rewrite H. cbn [env_get]. split.
  - rewrite length_map, length_combine. reflexivity.
  - rewrite map_map, <- map_fst_combine. apply map_ext. intros [s x]. reflexivity.
Qed.

Lemma aac_panel_zip_length_witness :
  aac_button_usage (with_usage [1 # 2; 1 # 2]) = Some [1 # 2; 1 # 2] /\
  List.length (_draw_aac_panel (with_usage [1 # 2; 1 # 2])) = Nat.min 6 2 /\
  map btn_symbol (_draw_aac_panel (with_usage [1 # 2; 1 # 2])) = firstn 2 aac_symbols.
Proof.
  split; [reflexivity|].
  apply (aac_panel_zip_length (with_usage [1 # 2; 1 # 2]) [1 # 2; 1 # 2]). reflexivity.
Defined.

(** Usage values after the sixth are never read: appending values to a usage
    list of at least six entries leaves the AAC panel unchanged. *)
Theorem aac_panel_ignores_extra_usage (u extra : list Q) :
  (6 <= List.length u)%nat ->
  _draw_aac_panel (with_usage (u ++ extra)) = _draw_aac_panel (with_usage u).
Proof.
  intro H. unfold _draw_aac_panel. cbn [env_get with_usage aac_button_usage].
  rewrite combine_app_r by (cbn; lia). reflexivity.
Qed.

Lemma aac_panel_ignores_extra_usage_witness :
  (6 <= List.length default_aac_usage)%nat /\
  _draw_aac_panel (with_usage (default_aac_usage ++ [9 # 10]))
  = _draw_aac_panel (with_usage default_aac_usage).
Proof.
  split; [cbn; lia|]. apply aac_panel_ignores_extra_usage. cbn; lia.
Defined.

(** ** Defaults of missing snapshot keys *)

(** A snapshot without [lesson_difficulty] shows difficulty 0.5 as "Medium"
    in the success color; without [hints_requested] or [time_on_lesson] it
    shows 0 hints and 0 steps. *)
Theorem lesson_panel_defaults (env : snapshot) :
  (lesson_difficulty env = None ->
     diff_text (_draw_lesson_panel env) = "Medium"%string /\
     diff_color (_draw_lesson_panel env) = success /\
     difficulty_shown (_draw_lesson_panel env) = (5 # 10)%Q) /\
  (hints_requested env = None -> hints_shown (_draw_lesson_panel env) = 0) /\
  (time_on_lesson env = None -> time_shown (_draw_lesson_panel env) = 0).
Proof.
  unfold _draw_lesson_panel.
  split; [|split]; intro H; rewrite H; [split; [|split]|..]; reflexivity.
Qed.

Lemma lesson_panel_defaults_witness :
  diff_text (_draw_lesson_panel empty_snapshot) = "Medium"%string /\
  hints_shown (_draw_lesson_panel empty_snapshot) = 0 /\
  time_shown (_draw_lesson_panel empty_snapshot) = 0.
Proof.
  destruct (lesson_panel_defaults empty_snapshot) as (H1 & H2 & H3).
  split; [apply (proj1 (H1 eq_refl))|]. split; [apply H2 | apply H3]; reflexivity.
Defined.

(** A snapshot without the metric keys shows accuracy 0.7 (280 of 400 pixels,
    "70.0%"), engagement 0.8 in the high tier (320 pixels, "80.0%"),
    interface efficiency 0.5 (200 pixels, "50.0%") and "Step: 0/200". *)
Theorem metrics_panel_defaults (env : snapshot) (r t : option Q) :
  let m := _draw_metrics_panel env r t in
  (student_accuracy env = None ->
     bar_filled_width (accuracy_bar m) = Some 280 /\ bar_value_text (accuracy_bar m) = "70.0%"%string) /\
  (engagement_level env = None ->
     bar_color (engagement_bar m) = engagement_high /\
     bar_filled_width (engagement_bar m) = Some 320 /\
     bar_value_text (engagement_bar m) = "80.0%"%string) /\
  (interface_efficiency env = None ->
     bar_filled_width (efficiency_bar m) = Some 200 /\
     bar_value_text (efficiency_bar m) = "50.0%"%string) /\
  (step env = None -> step_text m = "Step: 0/200"%string).
Proof.
  cbn zeta. unfold _draw_metrics_panel.
  split; [|split; [|split]]; intro H; rewrite H; vm_compute; repeat split.
Qed.

Lemma metrics_panel_defaults_witness :
  step_text (_draw_metrics_panel empty_snapshot None None) = "Step: 0/200"%string /\
  bar_filled_width (engagement_bar (_draw_metrics_panel empty_snapshot None None)) = Some 320.
Proof.
  destruct (metrics_panel_defaults empty_snapshot None None) as (_ & H2 & _ & H4).
  split; [apply H4 | apply (proj1 (proj2 (H2 eq_refl)))]; reflexivity.
Defined.

(** ** The step text *)

(** The step is shown as "Step: <step>/200" with no capping at 200, and two
    snapshots with different steps always give different step texts. *)
Theorem step_text_shows_step (env env' : snapshot) (r t r' t' : option Q) :
  step_text (_draw_metrics_panel env r t) =
    ("Step: " ++ z_repr (env_get (step env) 0) ++ "/200")%string /\
  (step_text (_draw_metrics_panel env r t) = step_text (_draw_metrics_panel env' r' t') ->
   env_get (step env) 0 = env_get (step env') 0).
Proof.
  split; [reflexivity|]. cbn [step_text _draw_metrics_panel].
  intro H. injection H as H. apply string_app_inv_r in H. apply z_repr_inj. exact H.
Qed.

Lemma step_text_shows_step_witness :
  step_text (_draw_metrics_panel test_state_1 None None) <>
  step_text (_draw_metrics_panel test_state_2 None None) /\
  step_text (_draw_metrics_panel
    {| lesson_difficulty := None; student_accuracy := None; engagement_level := None;
       hints_requested := None; time_on_lesson := None; interface_efficiency := None;
       aac_button_usage := None; step := Some 250 |} None None) = "Step: 250/200"%string.
Proof.
  split; [|rewrite (proj1 (step_text_shows_step _ empty_snapshot None None None None));
           reflexivity].
  intro H. apply (proj2 (step_text_shows_step test_state_1 test_state_2 None None None None))
    in H. discriminate.
Defined.

(** ** What [render] reads from the visualizer state *)


Lemma render_call_last_action (v : visualizer) (c : call) :
  last_action (fst (fst (render_call v c))) =
    match c_action c with Some a => Some a | None => last_action v end.
Proof.
  unfold render_call, render, update_action.
  destruct (c_action c); cbn [fst last_action];
  match goal with |- context [if ?b then _ else _] => destruct b end; reflexivity.
Qed.

Lemma run_last_action_idle (cs : list call) :
  forall v, Forall (fun c => c_action c = None) cs -> last_action (fst (run v cs)) = last_action v.
Proof.
  induction cs as [|c cs IH]; intros v Hall; [reflexivity|].
  inversion Hall as [|? ? Hc Hrest]; subst. cbn [run].
  pose proof (render_call_last_action v c) as Hl. rewrite Hc in Hl.
  destruct (render_call v c) as [[v1 fr] b]. cbn [fst] in Hl.
  specialize (IH v1 Hrest). destruct (run v1 cs) as [v2 frs]. cbn [fst] in *.
  rewrite IH. exact Hl.
Qed.

Lemma run_app (v : visualizer) (cs1 cs2 : list call) :
  fst (run v (cs1 ++ cs2)) = fst (run (fst (run v cs1)) cs2).
Proof.
  revert v. induction cs1 as [|c cs1 IH]; intro v; [reflexivity|].
  cbn [run app]. destruct (render_call v c) as [[v1 fr] b].
  specialize (IH v1). destruct (run v1 (cs1 ++ cs2)), (run v1 cs1). cbn [fst] in *.
  rewrite IH. reflexivity.
Qed.

(** The last supplied action is kept after any number of action-less calls,
    also once the countdown has run out: the countdown hides it from the agent
    panel but never clears it. *)
Theorem last_action_persists (v : visualizer) (cs1 : list call) (c : call) (a : Z)
    (cs2 : list call) :
  c_action c = Some a -> Forall (fun c => c_action c = None) cs2 ->
  last_action (fst (run v (cs1 ++ c :: cs2))) = Some a.
Proof.
  intros Ha Hall. rewrite run_app. cbn [run].
  pose proof (render_call_last_action (fst (run v cs1)) c) as Hl. rewrite Ha in Hl.
  destruct (render_call (fst (run v cs1)) c) as [[v1 fr] b]. cbn [fst] in Hl.
  pose proof (run_last_action_idle cs2 v1 Hall) as H2.
  destruct (run v1 cs2). cbn [fst] in *. rewrite H2. exact Hl.
Qed.

Lemma last_action_persists_witness :
  last_action (fst (run init ([] ++ action_call 3 :: repeat idle_call 20))) = Some 3.
Proof.
  apply (last_action_persists init [] (action_call 3) 3 (repeat idle_call 20));
    [reflexivity | repeat constructor].
Defined.

(** ** The reward text *)

(** The reward is always shown with an explicit sign: "Last Reward: +..." for
    a positive reward and "Last Reward: -..." in the error color for a
    negative one. *)
Theorem reward_text_sign (env : snapshot) (t : option Q) (r : Q) :
  ((0 < r)%Q -> exists rest,
     reward_text (_draw_metrics_panel env (Some r) t) =
       Some (("Last Reward: +" ++ rest)%string, reward_color r)) /\
  ((r < 0)%Q -> exists rest,
     reward_text (_draw_metrics_panel env (Some r) t) =
       Some (("Last Reward: -" ++ rest)%string, error)).
Proof.
  cbn [reward_text _draw_metrics_panel]. unfold fmt_plus_1f, reward_color. split; intro H.
  - replace (py_lt r 0) with false by (symmetry; apply py_lt_false; lra).
    exists (fmt_1f_abs r). reflexivity.
  - replace (py_lt r 0) with true by (symmetry; apply py_lt_spec; exact H).
    replace (py_lt 0 r) with false by (symmetry; apply py_lt_false; lra).
    exists (fmt_1f_abs r). reflexivity.
Qed.

Lemma reward_text_sign_witness :
  (exists rest, reward_text (_draw_metrics_panel empty_snapshot (Some (5 # 2)) None) =
     Some (("Last Reward: +" ++ rest)%string, reward_color (5 # 2))) /\
  (exists rest, reward_text (_draw_metrics_panel empty_snapshot (Some (-3)%Q) None) =
     Some (("Last Reward: -" ++ rest)%string, error)).
Proof.
  split; [apply (proj1 (reward_text_sign empty_snapshot None (5 # 2))); lra
         |apply (proj2 (reward_text_sign empty_snapshot None (-3)%Q)); lra].
Defined.

(** ** [_draw_metric_bar] on in-range values *)

(** For a value in [0, 1] and a track width in [0, 2^53) (where the width
    converts to a double exactly), [int(width * value)] does not raise and the
    filled part lies within the track: [0 <= filled <= width]. *)
Theorem metric_bar_in_track (label : string) (value : Q) (width : Z) (c : color) :
  0 <= width < 2 ^ 53 -> (0 <= value)%Q -> (value <= 1)%Q ->
  exists f, bar_filled_width (_draw_metric_bar label value width c) = Some f /\
            0 <= f <= width.
Proof.
  intros Hw H0 H1. cbn [bar_filled_width _draw_metric_bar].
  destruct (float_round_int width Hw) as (fw & Hfw & Efw).
  assert (Hw' : (0 <= inject_Z width)%Q) by (unfold Qle; cbn; lia).
  destruct (float_round_bounded width (fw * value) Hw) as (p & Hp & P0 & P1);
    [rewrite Efw; nra | rewrite Efw; nra |].
  unfold int_of_float_product. rewrite Hfw, Hp.
  exists (py_int p). split; [reflexivity|].
  split; [apply py_int_nonneg | apply py_int_le]; assumption.
Qed.

Lemma metric_bar_in_track_witness :
  exists f, bar_filled_width (_draw_metric_bar "Engagement" (3 # 4) 400 success) = Some f /\
            0 <= f <= 400.
Proof. apply metric_bar_in_track; [split; [lia | reflexivity] | lra | lra]. Defined.

(** ** Label and color of the lesson difficulty together *)

(** The "Medium" label always comes with the success color and "Easy" with
    the warning color; "Hard" comes with the success color only at exactly
    0.7, and with the warning color above it. *)
Theorem difficulty_label_color_combinations (d : Q) :
  let l := _draw_lesson_panel (with_difficulty d) in
  (diff_text l = "Medium"%string -> diff_color l = success) /\
  (diff_text l = "Easy"%string -> diff_color l = warning) /\
  (diff_text l = "Hard"%string /\ diff_color l = success <-> (d == 7 # 10)%Q).
Proof.
  cbn zeta. unfold _draw_lesson_panel, difficulty_text, difficulty_color.
  cbn [diff_text diff_color env_get with_difficulty lesson_difficulty].
  destruct (py_lt d (4 # 10)) eqn:E1; [apply py_lt_spec in E1 | apply py_lt_false in E1];
  destruct (py_lt d (7 # 10)) eqn:E2; try apply py_lt_spec in E2; try apply py_lt_false in E2;
  destruct (py_le (4 # 10) d && py_le d (7 # 10)) eqn:E3;
  try (apply andb_true_iff in E3; destruct E3 as [E3 E4];
       apply py_le_spec in E3; apply py_le_spec in E4);
  try (apply andb_false_iff in E3;
       destruct E3 as [E3|E3]; apply py_le_false in E3);
  repeat split; intros;
  repeat match goal with H : _ /\ _ |- _ => destruct H end;
  first [reflexivity | discriminate | lra | exfalso; lra].
Qed.

Lemma difficulty_label_color_combinations_witness :
  diff_color (_draw_lesson_panel (with_difficulty (1 # 2))) = success /\
  diff_color (_draw_lesson_panel (with_difficulty (1 # 10))) = warning /\
  (diff_text (_draw_lesson_panel (with_difficulty (7 # 10))) = "Hard"%string /\
   diff_color (_draw_lesson_panel (with_difficulty (7 # 10))) = success).
Proof.
  split; [apply (proj1 (difficulty_label_color_combinations (1 # 2))); reflexivity|].
  split; [apply (proj1 (proj2 (difficulty_label_color_combinations (1 # 10)))); reflexivity|].
  apply (proj2 (proj2 (proj2 (difficulty_label_color_combinations (7 # 10))))).
  reflexivity.
Defined.

(** ** [_initialize_button_positions] *)

Lemma lt6_cases (i : nat) : (i < 6)%nat -> i = 0%nat \/ i = 1%nat \/ i = 2%nat \/
  i = 3%nat \/ i = 4%nat \/ i = 5%nat.
Proof. intro; lia. Qed.

(** The six AAC buttons form a 2 x 3 grid of 180 x 120 rectangles: no two of
    them overlap and all lie inside the 1200 x 800 window. *)
Theorem button_positions_disjoint (i j : nat) :
  (i < 6)%nat -> (j < 6)%nat -> i <> j ->
  List.length _initialize_button_positions = 6%nat /\
  rects_overlap (nth i _initialize_button_positions (0, 0, 0, 0))
                (nth j _initialize_button_positions (0, 0, 0, 0)) = false /\
  rect_contains window_rect (nth i _initialize_button_positions (0, 0, 0, 0)) = true.
Proof.
  intros Hi Hj Hij.
  destruct (lt6_cases i Hi) as [-> | [-> | [-> | [-> | [-> | ->]]]]];
  destruct (lt6_cases j Hj) as [-> | [-> | [-> | [-> | [-> | ->]]]]];
  (contradiction || (vm_compute; repeat split)).
Qed.

Lemma button_positions_disjoint_witness :
  List.length _initialize_button_positions = 6%nat /\
  rects_overlap (nth 1 _initialize_button_positions (0, 0, 0, 0))
                (nth 4 _initialize_button_positions (0, 0, 0, 0)) = false /\
  rect_contains window_rect (nth 1 _initialize_button_positions (0, 0, 0, 0)) = true.
Proof. apply button_positions_disjoint; lia. Defined.

(** The first-row buttons lie inside the AAC panel background (50, 470,
    600 x 280), while the second-row buttons end at y = 760, 10 pixels below
    the panel's bottom edge at y = 750. *)
Theorem button_positions_vs_aac_panel (i : nat) :
  (i < 6)%nat ->
  rect_contains aac_panel_rect (nth i _initialize_button_positions (0, 0, 0, 0)) = (i <? 3)%nat /\
  ((3 <= i)%nat ->
   let '(_, y, _, h) := nth i _initialize_button_positions (0, 0, 0, 0) in y + h = 760).
Proof.
  intro Hi. destruct (lt6_cases i Hi) as [-> | [-> | [-> | [-> | [-> | ->]]]]];
  vm_compute; split; try reflexivity; intro H; lia.
Qed.

Lemma button_positions_vs_aac_panel_witness :
  rect_contains aac_panel_rect (nth 4 _initialize_button_positions (0, 0, 0, 0)) = (4 <? 3)%nat /\
  ((3 <= 4)%nat ->
   let '(_, y, _, h) := nth 4 _initialize_button_positions (0, 0, 0, 0) in y + h = 760).
Proof. apply button_positions_vs_aac_panel. lia. Defined.

(** ** The [__main__] demonstration *)

(** Whatever rewards are drawn: if no quit event is pending at the first
    frame, the demo renders two frames showing "Step: 15/200" then
    "Step: 20/200", actions 0 and 1 by name, and AAC tiers computed from each
    state's own usage values; if a quit event is pending at the first frame,
    it stops after that frame. *)
Theorem demo_main_frames (r1 r2 : Q) (e1 e2 : list event) :
  (existsb is_exit_event e1 = false ->
   map (fun f => step_text (metrics f)) (demo_main r1 r2 e1 e2)
     = ["Step: 15/200"; "Step: 20/200"]%string /\
   map (fun f => action_shown (agent f)) (demo_main r1 r2 e1 e2)
     = [Highlight "Keep current layout"; Highlight "Optimize AAC buttons"]%string /\
   map (fun f => map btn_color (aac f)) (demo_main r1 r2 e1 e2)
     = [[button_hover; button; button_hover; button; button_hover; button];
        [button_active; button; button; button; button_hover; button]]) /\
  (existsb is_exit_event e1 = true -> List.length (demo_main r1 r2 e1 e2) = 1%nat).
Proof.
  unfold demo_main. cbn [demo_loop]. unfold render. cbn zeta.
  rewrite !(handle_events_exists e1).
  destruct (handle_events e2); split; intro He; rewrite !He; cbn [negb];
  try (repeat split; reflexivity); reflexivity.
Qed.

Lemma demo_main_frames_witness :
  map (fun f => step_text (metrics f)) (demo_main 1 (-2) [OTHER_EVENT] [QUIT])
    = ["Step: 15/200"; "Step: 20/200"]%string /\
  List.length (demo_main 1 (-2) [KEYDOWN K_q] []) = 1%nat.
Proof.
  split; [apply (proj1 (demo_main_frames 1 (-2) [OTHER_EVENT] [QUIT]) eq_refl)
         |apply (proj2 (demo_main_frames 1 (-2) [KEYDOWN K_q] [])); reflexivity].
Defined.
